(** * adafruit_husb238: register-level driver for the HUSB238 USB-PD sink

    A shallow embedding of [adafruit_husb238.py].  The driver is a class of
    register descriptors (bit fields over byte-wide I2C registers), four
    dictionaries used as decode tables, and a handful of properties that
    read a field and decode it or write a command byte.

    Bus traffic, sleeps and diagnostic prints are effects; they are kept in
    a log carried by a small state-and-exception monad, next to the register
    file of the chip. *)

From Stdlib Require Import ZArith QArith Lia Sorted.
From coqutil Require Import Z.bitblast.
From stdpp Require Import base gmap strings list pretty.

Open Scope Z_scope.

(** ** Python values, exceptions and effects *)

(** [read_voltage] is annotated [Union[int, str]]: the voltage table mixes
    integers with the string ["UNATTACHED"]. *)
Inductive pyval : Type :=
| PyInt (n : Z)
| PyStr (s : string).

Inductive exn : Type :=
| KeyError (key : Z)
| ValueError (msg : string)
| StructError
| RecursionError.

(** What the driver does to the outside world, in program order. *)
Inductive event : Type :=
| BusRead (register : Z)
| BusWrite (register : Z) (byte : Z)
| Sleep (seconds : Q)
| Print (text : string) (end_ : string).

(** The chip behind the [I2CDevice]: its register file and the log of
    effects so far.  A register nobody wrote reads as zero. *)
Record bus : Type := Bus {
  regs : gmap Z Z;
  log : list event
}.

Definition reg_value (m : gmap Z Z) (register : Z) : Z :=
  default 0 (m !! register).

Module PyM.

Definition M (A : Type) : Type := bus -> (exn + A) * bus.

Definition ret {A} (a : A) : M A := fun s => (inr a, s).

Definition raise {A} (e : exn) : M A := fun s => (inl e, s).

Definition bind {A B} (c : M A) (k : A -> M B) : M B :=
  fun s =>
    match c s with
    | (inl e, s') => (inl e, s')
    | (inr a, s') => k a s'
    end.

Definition emit (e : event) : M unit :=
  fun s => (inr tt, Bus (regs s) (log s ++ [e])).

End PyM.
Import PyM.

#[global] Instance M_ret : MRet M := @ret.
#[global] Instance M_bind : MBind M := fun A B k c => bind c k.

Definition newline : string := String (Ascii.ascii_of_nat 10) "".

(** [print(text)] and [print(text, end=e)]. *)
Definition print (text : string) : M unit := emit (Print text newline).
Definition print_end (text e : string) : M unit := emit (Print text e).

(** [time.sleep(seconds)]; the duration asked for is kept as an exact
    rational number of seconds. *)
Definition sleep (seconds : Q) : M unit := emit (Sleep seconds).

(** [for x in xs: acc = body(x, acc)]. *)
Fixpoint for_each {A B} (xs : list A) (body : A -> B -> M B) (acc : B) : M B :=
  match xs with
  | [] => ret acc
  | x :: xs' => acc' ← body x acc; for_each xs' body acc'
  end.

(** [d[k]] on a dictionary with integer keys. *)
Definition getitem {V} (d : gmap Z V) (k : Z) : M V :=
  match d !! k with
  | Some v => ret v
  | None => raise (KeyError k)
  end.

(** [k in d]. *)
Definition contains {V} (d : gmap Z V) (k : Z) : bool :=
  match d !! k with
  | Some _ => true
  | None => false
  end.

(** ** The register descriptors *)

(** Modelled from the spec: the descriptors [ROBit], [ROBits], [RWBits] and
    [UnaryStruct] come from the [adafruit_register] package, which the driver
    imports and which is not part of these sources.  They are the shift and
    mask accessors of the register map: a read fetches the one-byte register
    and extracts the field, a write of a field fetches the register, replaces
    the field and stores the byte back, and a [UnaryStruct] transfers the
    whole byte. *)
Module Register.

(** One register transaction each way. *)
Definition read_register (address : Z) : M Z :=
  fun s => (inr (reg_value (regs s) address),
            Bus (regs s) (log s ++ [BusRead address])).

Definition write_register (address byte : Z) : M unit :=
  fun s => (inr tt,
            Bus (<[address := byte]> (regs s))
                (log s ++ [BusWrite address byte])).

Record Bit : Type := MkBit {
  bit_address : Z;
  bit_mask : Z
}.

(** [ROBit(register_address, bit)]: [bit_mask = 1 << (bit % 8)]. *)
Definition ROBit (register_address bit : Z) : Bit :=
  MkBit register_address (Z.shiftl 1 (bit mod 8)).

(** [bool(buffer[1] & bit_mask)]. *)
Definition Bit_field (d : Bit) (byte : Z) : bool :=
  negb (Z.land byte (bit_mask d) =? 0).

Definition Bit_get (d : Bit) : M bool :=
  byte ← read_register (bit_address d);
  ret (Bit_field d byte).

Record Bits : Type := MkBits {
  bits_address : Z;
  bits_mask : Z;
  lowest_bit : Z
}.

(** [RWBits(num_bits, register_address, lowest_bit)]:
    [bit_mask = ((1 << num_bits) - 1) << lowest_bit]. *)
Definition RWBits (num_bits register_address lowest : Z) : Bits :=
  MkBits register_address
         (Z.shiftl (Z.shiftl 1 num_bits - 1) lowest)
         lowest.

(** [ROBits] reads like [RWBits]; the driver never assigns to one. *)
Definition ROBits := RWBits.

(** [(reg & bit_mask) >> lowest_bit]. *)
Definition Bits_field (d : Bits) (reg : Z) : Z :=
  Z.shiftr (Z.land reg (bits_mask d)) (lowest_bit d).

Definition Bits_get (d : Bits) : M Z :=
  reg ← read_register (bits_address d);
  ret (Bits_field d reg).

(** [value <<= lowest_bit; reg &= ~bit_mask; reg |= value;
    buffer[1] = reg & 0xFF; write]. *)
Definition Bits_set (d : Bits) (value : Z) : M unit :=
  let value := Z.shiftl value (lowest_bit d) in
  reg ← read_register (bits_address d);
  let reg := Z.land reg (Z.lnot (bits_mask d)) in
  let reg := Z.lor reg value in
  write_register (bits_address d) (Z.land reg 255).

(** [UnaryStruct(register_address, "<B")]: one unsigned byte. *)
Record Struct : Type := MkStruct { struct_address : Z }.

Definition UnaryStruct (register_address : Z) : Struct :=
  MkStruct register_address.

Definition Struct_get (d : Struct) : M Z :=
  read_register (struct_address d).

(** [struct.pack_into("<B", ...)] refuses a value that is not a byte. *)
Definition Struct_set (d : Struct) (value : Z) : M unit :=
  if (0 <=? value) && (value <=? 255)
  then write_register (struct_address d) value
  else raise StructError.

End Register.
Import Register.

(** ** Register offsets *)

Definition _I2CADDR_DEFAULT : Z := 0x08.

Definition _PD_STATUS0 : Z := 0x00.
Definition _PD_STATUS1 : Z := 0x01.
Definition _SRC_PDO_5V : Z := 0x02.
Definition _SRC_PDO_9V : Z := 0x03.
Definition _SRC_PDO_12V : Z := 0x04.
Definition _SRC_PDO_15V : Z := 0x05.
Definition _SRC_PDO_18V : Z := 0x06.
Definition _SRC_PDO_20V : Z := 0x07.
Definition _SRC_PDO : Z := 0x08.
Definition _GO_COMMAND : Z := 0x09.

(** ** class Adafruit_HUSB238 *)

Definition cc_direction := ROBit _PD_STATUS1 7.
Definition attachment_status := ROBit _PD_STATUS1 6.
Definition pd_response := ROBits 3 _PD_STATUS1 3.
Definition contract_v_5v := ROBit _PD_STATUS1 2.
Definition contract_a_5v := ROBits 2 _PD_STATUS1 0.
Definition pd_src_voltage := ROBits 4 _PD_STATUS0 4.
Definition pd_src_current := ROBits 4 _PD_STATUS0 0.
Definition voltage_detected_5v := ROBit _SRC_PDO_5V 7.
Definition voltage_detected_9v := ROBit _SRC_PDO_9V 7.
Definition voltage_detected_12v := ROBit _SRC_PDO_12V 7.
Definition voltage_detected_15v := ROBit _SRC_PDO_15V 7.
Definition voltage_detected_18v := ROBit _SRC_PDO_18V 7.
Definition voltage_detected_20v := ROBit _SRC_PDO_20V 7.
Definition current_detected_5v := ROBits 4 _SRC_PDO_5V 0.
Definition current_detected_9v := ROBits 4 _SRC_PDO_9V 0.
Definition current_detected_12v := ROBits 4 _SRC_PDO_12V 0.
Definition current_detected_15v := ROBits 4 _SRC_PDO_15V 0.
Definition current_detected_18v := ROBits 4 _SRC_PDO_18V 0.
Definition current_detected_20v := ROBits 4 _SRC_PDO_20V 0.
Definition selected_pd := RWBits 4 _SRC_PDO 4.
Definition _go_command := UnaryStruct _GO_COMMAND.
Definition _src_pdo := UnaryStruct _SRC_PDO.

(** Voltage to PDO mapping.  The binary literals of the source are written
    in hexadecimal here. *)
Definition VOLTAGE_TO_PDO : gmap Z Z :=
  list_to_map
    [ (5, 0x1);
      (9, 0x2);
      (12, 0x3);
      (15, 0x8);
      (18, 0x9);
      (20, 0xA) ].

(** PDO to voltage mapping. *)
Definition PDO_TO_VOLTAGE : gmap Z pyval :=
  list_to_map
    [ (0x0, PyStr "UNATTACHED");
      (0x1, PyInt 5);
      (0x2, PyInt 9);
      (0x3, PyInt 12);
      (0x4, PyInt 15);
      (0x5, PyInt 18);
      (0x6, PyInt 20) ].

(** PDO to current mapping. *)
Definition PDO_TO_CURRENT : gmap Z string :=
  list_to_map
    [ (0x0, "0.5A");
      (0x1, "0.7A");
      (0x2, "1.0A");
      (0x3, "1.25A");
      (0x4, "1.5A");
      (0x5, "1.75A");
      (0x6, "2.0A");
      (0x7, "2.0A");
      (0x8, "2.50A");
      (0x9, "2.75A");
      (0xA, "3.0A");
      (0xB, "3.25A");
      (0xC, "3.5A");
      (0xD, "4.0A");
      (0xE, "4.5A");
      (0xF, "5.0A") ].

(** PDO response codes. *)
Definition PDO_RESPONSE_CODES : gmap Z string :=
  list_to_map
    [ (0x0, "NO RESPONSE");
      (0x1, "SUCCESS");
      (0x3, "INVALID COMMAND OR ARGUMENT");
      (0x4, "COMMAND NOT SUPPORTED");
      (0x5, "TRANSACTION FAILED, NO GOOD CRC") ].

(** The list literal of the loop is built first: all six detection bits are
    read before the first voltage is printed. *)
Definition available_voltages : M (list Z) :=
  print "The following voltages are available:";;
  d5 ← Bit_get voltage_detected_5v;
  d9 ← Bit_get voltage_detected_9v;
  d12 ← Bit_get voltage_detected_12v;
  d15 ← Bit_get voltage_detected_15v;
  d18 ← Bit_get voltage_detected_18v;
  d20 ← Bit_get voltage_detected_20v;
  for_each
    [ (5, d5); (9, d9); (12, d12); (15, d15); (18, d18); (20, d20) ]
    (fun '(voltage, detected) _available_voltages =>
       print_end (pretty voltage +:+ "V:") " ";;
       if detected : bool
       then print "Available";; ret (_available_voltages ++ [voltage])
       else print "Unavailable";; ret _available_voltages)
    [].

Definition get_5v_contract_amps : M Z :=
  amps ← Bits_get contract_a_5v;
  ret amps.

Definition get_5v_contract_volts : M bool :=
  volts ← Bit_get contract_v_5v;
  ret volts.

Definition get_cc_direction : M bool :=
  direction ← Bit_get cc_direction;
  (if direction : bool
   then print "CC2 connected"
   else print "CC1 connected");;
  ret direction.

Definition get_response : M string :=
  code ← Bits_get pd_response;
  pd_msg ← getitem PDO_RESPONSE_CODES code;
  ret pd_msg.

Definition get_source_capabilities : M Z :=
  Struct_set _go_command 0x02;;
  sleep 0.01;;
  Struct_get _src_pdo.

Definition is_attached : M bool :=
  status ← Bit_get attachment_status;
  ret status.

(** The field is read once for the membership test and once more for the
    lookup. *)
Definition read_current : M string :=
  code ← Bits_get pd_src_current;
  if contains PDO_TO_CURRENT code
  then
    code' ← Bits_get pd_src_current;
    pdo_value ← getitem PDO_TO_CURRENT code';
    ret pdo_value
  else ret "Unable to read current"%string.

Definition read_voltage : M pyval :=
  sleep 0.01;;
  code ← Bits_get pd_src_voltage;
  if contains PDO_TO_VOLTAGE code
  then
    code' ← Bits_get pd_src_voltage;
    pdo_value ← getitem PDO_TO_VOLTAGE code';
    ret pdo_value
  else ret (PyStr "Unable to read voltage").

Definition reset : M unit :=
  Struct_set _go_command 0x01.

Definition set_value : M unit :=
  Struct_set _go_command 0x1.

(** The getter of [value] returns [self.value], which is the getter again.
    [depth] is the number of frames the interpreter still allows; when none
    is left the call raises instead of recursing. *)
Fixpoint value (depth : nat) : M Z :=
  match depth with
  | O => raise RecursionError
  | S depth' => value depth'
  end.

(** The setter of [value]. *)
Definition value_setter (voltage : Z) : M unit :=
  if negb (contains VOLTAGE_TO_PDO voltage)
  then raise (ValueError ("Invalid voltage: " +:+ pretty voltage +:+ "V"))
  else
    pdo_value ← getitem VOLTAGE_TO_PDO voltage;
    Bits_set selected_pd pdo_value.

(** ** Definitions used by the statements *)

(** The bus after one more effect. *)
Definition logged (s : bus) (es : list event) : bus :=
  Bus (regs s) (log s ++ es).

(** The status byte of the spec's example, 0b11001010. *)
Definition status1_example : Z := 0xCA.

(** A chip whose PD_STATUS1 holds that byte. *)
Definition status1_bus : bus := Bus {[ _PD_STATUS1 := status1_example ]} [].

(** A byte with [code] in bits 3 to 5 and nothing else. *)
Definition status1_with_response (code : Z) : bus :=
  Bus {[ _PD_STATUS1 := Z.shiftl code 3 ]} [].

(** A byte with [code] in bits 4 to 7 and nothing else. *)
Definition status0_with_voltage (code : Z) : bus :=
  Bus {[ _PD_STATUS0 := Z.shiftl code 4 ]} [].

(** The string [read_voltage] returns when the code is not in its table. *)
Definition unable_to_read_voltage : pyval := PyStr "Unable to read voltage".

(** What [Bits_set selected_pd code] stores in SRC_PDO when the register
    held [old]. *)
Definition selection_byte (old code : Z) : Z :=
  Z.land (Z.lor (Z.land old (Z.lnot 0xF0)) (Z.shiftl code 4)) 255.

(** The selector code documented for each of the six voltages. *)
Definition selector_codes : list (Z * Z) :=
  [ (5, 0x1); (9, 0x2); (12, 0x3); (15, 0x8); (18, 0x9); (20, 0xA) ].

(** The exception the setter of [value] raises. *)
Definition invalid_voltage (voltage : Z) : exn :=
  ValueError ("Invalid voltage: " +:+ pretty voltage +:+ "V").

(** The body of the loop of [available_voltages]. *)
Definition report : Z * bool -> list Z -> M (list Z) :=
  fun '(voltage, detected) _available_voltages =>
    print_end (pretty voltage +:+ "V:") " ";;
    if detected : bool
    then print "Available";; ret (_available_voltages ++ [voltage])
    else print "Unavailable";; ret _available_voltages.

(** Detection bits 5V=1, 9V=0, 12V=1, 15V=0, 18V=0, 20V=1. *)
Definition capabilities_example : bus :=
  Bus (list_to_map
         [ (_SRC_PDO_5V, 0x8A); (_SRC_PDO_9V, 0x0A); (_SRC_PDO_12V, 0x86);
           (_SRC_PDO_15V, 0x00); (_SRC_PDO_18V, 0x00); (_SRC_PDO_20V, 0x84) ])
      [].

(** The register that holds the detection bit of each voltage, as paired in
    the loop of [available_voltages]. *)
Definition capability_registers : list (Z * Z) :=
  [ (5, _SRC_PDO_5V); (9, _SRC_PDO_9V); (12, _SRC_PDO_12V);
    (15, _SRC_PDO_15V); (18, _SRC_PDO_18V); (20, _SRC_PDO_20V) ].

(** Bit 7 of a capability register. *)
Definition detection_bit (s : bus) (register : Z) : bool :=
  Z.testbit (reg_value (regs s) register) 7.

(** The message printed for a CC direction. *)
Definition cc_message (direction : bool) : string :=
  if direction then "CC2 connected" else "CC1 connected".

(** The two lines printed for each voltage of the loop. *)
Definition report_log (items : list (Z * bool)) : list event :=
  flat_map
    (fun '(voltage, detected) =>
       [Print (pretty voltage +:+ "V:") " ";
        Print (if detected : bool then "Available" else "Unavailable") newline])
    items.

(** The voltages of the loop with the detection bits of a chip. *)
Definition detected_items (s : bus) : list (Z * bool) :=
  map (fun '(voltage, register) => (voltage, detection_bit s register))
      capability_registers.

(** ** The example script *)

(** [examples/husb238_simpletest.py]: the script lists the available
    voltages and then loops forever, selecting one voltage after the other
    while a source is attached.  Next to the exceptions of the driver the
    script can meet those of the interpreter. *)
Module Simpletest.

Inductive script_exn : Type :=
| DriverError (e : exn)
| TypeError (msg : string)
| IndexError
| ZeroDivisionError.

Definition Script (A : Type) : Type := bus -> (script_exn + A) * bus.

Definition script_ret {A} (a : A) : Script A := fun s => (inr a, s).

Definition script_raise {A} (e : script_exn) : Script A := fun s => (inl e, s).

Definition script_bind {A B} (c : Script A) (k : A -> Script B) : Script B :=
  fun s =>
    match c s with
    | (inl e, s') => (inl e, s')
    | (inr a, s') => k a s'
    end.

(** A computation of the driver inside the script; what it raises goes up
    unchanged. *)
Definition lift {A} (c : M A) : Script A :=
  fun s =>
    match c s with
    | (inl e, s') => (inl (DriverError e), s')
    | (inr a, s') => (inr a, s')
    end.

#[global] Instance Script_ret : MRet Script := @script_ret.
#[global] Instance Script_bind : MBind Script :=
  fun A B k c => script_bind c k.

(** [x()] where [x] is a [bool], a [str] or an [int]: none of them can be
    called. *)
Definition not_callable (type_name : string) : Script pyval :=
  script_raise (TypeError ("'" +:+ type_name +:+ "' object is not callable")).

Definition call_bool (callee : bool) : Script pyval := not_callable "bool".

Definition call_str (callee : string) : Script pyval := not_callable "str".

Definition call_pyval (callee : pyval) : Script pyval :=
  match callee with
  | PyInt _ => not_callable "int"
  | PyStr _ => not_callable "str"
  end.

(** Truth value of a Python value in a condition. *)
Definition truthy (v : pyval) : bool :=
  match v with
  | PyInt n => negb (n =? 0)
  | PyStr s => negb (String.eqb s "")
  end.

(** [str(v)] as an f-string inserts it. *)
Definition str (v : pyval) : string :=
  match v with
  | PyInt n => pretty n
  | PyStr s => s
  end.

(** [l[i]]: a negative index counts from the end. *)
Definition getindex (l : list Z) (i : Z) : Script Z :=
  let n := Z.of_nat (length l) in
  let i' := if i <? 0 then i + n else i in
  if (0 <=? i') && (i' <? n)
  then match l !! Z.to_nat i' with
       | Some x => script_ret x
       | None => script_raise IndexError
       end
  else script_raise IndexError.

(** [a % b] on integers. *)
Definition modulo (a b : Z) : Script Z :=
  if b =? 0 then script_raise ZeroDivisionError else script_ret (a mod b).

(** [while True:] run for at most [fuel] rounds; when the rounds are used up
    the loop is still running and the index [v] it has reached is given
    back. *)
Fixpoint loop (fuel : nat) (voltages : list Z) (v : Z) : Script Z :=
  match fuel with
  | O => script_ret v
  | S fuel' =>
      status ← lift is_attached;
      attached ← call_bool status;
      if truthy attached
      then
        shown ← getindex voltages v;
        lift (print ("Setting to " +:+ pretty shown +:+ "V!"));;
        voltage ← getindex voltages v;
        lift (value_setter voltage);;
        lift set_value;;
        level ← lift read_current;
        current ← call_str level;
        reading ← lift read_voltage;
        volts ← call_pyval reading;
        msg ← lift get_response;
        response ← call_str msg;
        lift (print ("The PD chip returned a response of: " +:+ str response));;
        lift (print ("It is set to " +:+ str volts +:+ "V/" +:+ str current));;
        lift (print "");;
        v' ← modulo (v + 1) (Z.of_nat (length voltages));
        lift (sleep 2);;
        loop fuel' voltages v'
      else loop fuel' voltages v
  end.

Definition main (fuel : nat) : Script Z :=
  voltages ← lift available_voltages;
  loop fuel voltages 0.

End Simpletest.

Import Simpletest.

(** * Properties *)

(** ** Running the monad *)

Section Running.

Context {A B : Type}.

Lemma run_bind (c : M A) (k : A -> M B) (s : bus) :
  (c ≫= k) s =
  match c s with
  | (inl e, s') => (inl e, s')
  | (inr a, s') => k a s'
  end.
Proof. reflexivity. Qed.

Lemma run_bind_ok (c : M A) (k : A -> M B) (s s' : bus) (a : A) :
  c s = (inr a, s') -> (c ≫= k) s = k a s'.
Proof. intros Hc. rewrite run_bind, Hc. reflexivity. Qed.

Lemma run_bind_raise (c : M A) (k : A -> M B) (s s' : bus) (e : exn) :
  c s = (inl e, s') -> (c ≫= k) s = (inl e, s').
Proof. intros Hc. rewrite run_bind, Hc. reflexivity. Qed.

End Running.

Lemma logged_logged s es es' :
  logged (logged s es) es' = logged s (es ++ es').
Proof. unfold logged; simpl. by rewrite <- app_assoc. Qed.

Lemma regs_logged s es : regs (logged s es) = regs s.
Proof. reflexivity. Qed.

Lemma log_logged s es : log (logged s es) = log s ++ es.
Proof. reflexivity. Qed.

Lemma run_emit e s : emit e s = (inr (), logged s [e]).
Proof. reflexivity. Qed.

Lemma run_print text s : print text s = (inr (), logged s [Print text newline]).
Proof. reflexivity. Qed.

(** Unfolds the effects that only extend the log and flattens the log. *)
Ltac run_effects :=
  unfold print, print_end, sleep;
  repeat (first [rewrite run_bind | rewrite run_emit | rewrite logged_logged];
          cbv beta iota);
  simpl.

Lemma run_Bit_get d s :
  Bit_get d s =
  (inr (Bit_field d (reg_value (regs s) (bit_address d))),
   logged s [BusRead (bit_address d)]).
Proof. reflexivity. Qed.

Lemma run_Bits_get d s :
  Bits_get d s =
  (inr (Bits_field d (reg_value (regs s) (bits_address d))),
   logged s [BusRead (bits_address d)]).
Proof. reflexivity. Qed.

Lemma run_getitem_Some {V} (d : gmap Z V) k v s :
  d !! k = Some v -> getitem d k s = (inr v, s).
Proof. intros H. unfold getitem. by rewrite H. Qed.

Lemma run_getitem_None {V} (d : gmap Z V) k s :
  d !! k = None -> getitem d k s = (@inl exn V (KeyError k), s).
Proof. intros H. unfold getitem. by rewrite H. Qed.

(** ** C1: decoding PD_STATUS1 *)

(** C1 (amended).  With PD_STATUS1 = 0b11001010 the accessors give:
    attachment status true, CC direction true (CC2), response code bits 0b001
    which [get_response] decodes to "SUCCESS", 5V contract current bits 0b10,
    and the 5V contract voltage flag (bit 2) false, since bit 2 of the byte
    is clear. *)
Theorem pd_status1_decode (s : bus) :
  reg_value (regs s) _PD_STATUS1 = status1_example ->
  is_attached s = (inr true, logged s [BusRead _PD_STATUS1]) /\
  get_cc_direction s =
    (inr true, logged s [BusRead _PD_STATUS1; Print "CC2 connected" newline]) /\
  Bits_get pd_response s = (inr 0x1, logged s [BusRead _PD_STATUS1]) /\
  get_response s = (inr "SUCCESS"%string, logged s [BusRead _PD_STATUS1]) /\
  get_5v_contract_volts s = (inr false, logged s [BusRead _PD_STATUS1]) /\
  get_5v_contract_amps s = (inr 0x2, logged s [BusRead _PD_STATUS1]).
Proof.
  intros Hreg.
  unfold is_attached, get_cc_direction, get_response,
    get_5v_contract_volts, get_5v_contract_amps.
  rewrite !run_bind, !run_Bit_get, !run_Bits_get; simpl.
  rewrite !Hreg.
  repeat split; try reflexivity.
  change (Bit_field cc_direction status1_example) with true.
  by run_effects.
Qed.

Lemma pd_status1_decode_witness :
  reg_value (regs status1_bus) _PD_STATUS1 = status1_example /\
  get_response status1_bus =
    (inr "SUCCESS"%string, logged status1_bus [BusRead _PD_STATUS1]) /\
  get_5v_contract_volts status1_bus =
    (inr false, logged status1_bus [BusRead _PD_STATUS1]).
Proof.
  split; [reflexivity |].
  split; apply (pd_status1_decode status1_bus); reflexivity.
Defined.

(** C1 as the spec states it, with the 5V contract voltage flag set, does
    not hold on the example byte. *)
Lemma pd_status1_flag_is_clear :
  reg_value (regs status1_bus) _PD_STATUS1 = status1_example /\
  ~ ((is_attached status1_bus).1 = inr true /\
     (get_cc_direction status1_bus).1 = inr true /\
     (Bits_get pd_response status1_bus).1 = inr 0x1 /\
     (get_response status1_bus).1 = inr "SUCCESS"%string /\
     (get_5v_contract_volts status1_bus).1 = inr true /\
     (get_5v_contract_amps status1_bus).1 = inr 0x2).
Proof.
  split; [reflexivity |].
  intros (_ & _ & _ & _ & Hflag & _).
  vm_compute in Hflag. discriminate Hflag.
Qed.

(** ** Masks of the fields in use *)

Lemma pd_response_field reg :
  Bits_field pd_response reg = Z.shiftr (Z.land reg 0x38) 3.
Proof. reflexivity. Qed.

Lemma pd_src_voltage_field reg :
  Bits_field pd_src_voltage reg = Z.shiftr (Z.land reg 0xF0) 4.
Proof. reflexivity. Qed.

Lemma pd_src_current_field reg :
  Bits_field pd_src_current reg = Z.land reg 0xF.
Proof. unfold Bits_field; simpl. apply Z.shiftr_0_r. Qed.

(** Whatever the register holds, a four-bit field at bit 0 is below 16. *)
Lemma pd_src_current_range reg :
  0 <= Bits_field pd_src_current reg < 16.
Proof.
  rewrite pd_src_current_field.
  change 0xF with (Z.ones 4). rewrite Z.land_ones by lia.
  apply Z.mod_pos_bound. lia.
Qed.

(** ** C2: response codes outside the table *)

(** C2 (what the code does).  When the response field reads 0b010, 0b110 or
    0b111, [get_response] does not return: the subscript on
    PDO_RESPONSE_CODES raises KeyError with the raw code, after the one
    register read. *)
Theorem get_response_undefined_code (s : bus) (code : Z) :
  code = 0x2 \/ code = 0x6 \/ code = 0x7 ->
  Bits_field pd_response (reg_value (regs s) _PD_STATUS1) = code ->
  get_response s = (inl (KeyError code), logged s [BusRead _PD_STATUS1]).
Proof.
  intros Hcode Hfield. unfold get_response.
  rewrite (run_bind_ok _ _ _ _ _ (run_Bits_get pd_response s)).
  change (bits_address pd_response) with _PD_STATUS1. rewrite Hfield.
  apply run_bind_raise, run_getitem_None.
  destruct Hcode as [-> | [-> | ->]]; reflexivity.
Qed.

Lemma get_response_undefined_code_witness :
  get_response (status1_with_response 0x2) =
  (inl (KeyError 0x2), logged (status1_with_response 0x2) [BusRead _PD_STATUS1]).
Proof.
  apply (get_response_undefined_code (status1_with_response 0x2) 0x2).
  - left; reflexivity.
  - reflexivity.
Defined.

(** ** C6: source-voltage codes outside the table *)

(** C6.  When the source-voltage field reads a code from 0b0111 to 0b1111,
    [read_voltage] returns the marker "Unable to read voltage" after the
    sleep and a single register read; the marker is none of the values of
    the voltage table (5, 9, 12, 15, 18, 20, "UNATTACHED"). *)
Theorem read_voltage_undefined_code (s : bus) (code : Z) :
  0x7 <= code <= 0xF ->
  Bits_field pd_src_voltage (reg_value (regs s) _PD_STATUS0) = code ->
  read_voltage s =
    (inr unable_to_read_voltage, logged s [Sleep 0.01; BusRead _PD_STATUS0]) /\
  (forall k, PDO_TO_VOLTAGE !! k <> Some unable_to_read_voltage) /\
  unable_to_read_voltage ∉
    [PyInt 5; PyInt 9; PyInt 12; PyInt 15; PyInt 18; PyInt 20;
     PyStr "UNATTACHED"].
Proof.
  intros Hcode Hfield. split; [| split].
  - unfold read_voltage. run_effects.
    rewrite Hfield.
    assert (Hnot : contains PDO_TO_VOLTAGE code = false).
    { assert (Hcases : code = 7 \/ code = 8 \/ code = 9 \/ code = 10 \/
                       code = 11 \/ code = 12 \/ code = 13 \/ code = 14 \/
                       code = 15) by lia.
      repeat (destruct Hcases as [-> | Hcases]; [reflexivity |]).
      rewrite Hcases; reflexivity. }
    rewrite Hnot. unfold mret, M_ret, ret, logged. by rewrite <- app_assoc.
  - intros k Hk.
    apply elem_of_list_to_map_2 in Hk.
    repeat (apply elem_of_cons in Hk as [Hk | Hk]; [discriminate Hk |]).
    by apply elem_of_nil in Hk.
  - intros Hin.
    repeat (apply elem_of_cons in Hin as [Hin | Hin]; [discriminate Hin |]).
    by apply elem_of_nil in Hin.
Qed.

Lemma read_voltage_undefined_code_witness :
  read_voltage (status0_with_voltage 0xB) =
  (inr unable_to_read_voltage,
   logged (status0_with_voltage 0xB) [Sleep 0.01; BusRead _PD_STATUS0]).
Proof.
  apply (read_voltage_undefined_code (status0_with_voltage 0xB) 0xB).
  - lia.
  - reflexivity.
Defined.

(** ** Four-bit codes *)

(** A property of all sixteen codes is checked code by code. *)
Lemma nibble_ind (P : Z -> Prop) :
  Forall P (seqZ 0 16) -> forall code, 0 <= code < 16 -> P code.
Proof.
  intros HP code Hcode. rewrite Forall_forall in HP.
  apply HP, elem_of_seqZ. lia.
Qed.

Ltac each_nibble code Hcode :=
  revert code Hcode; refine (nibble_ind _ _);
  let codes := eval vm_compute in (seqZ 0 16) in
  change (seqZ 0 16) with codes;
  repeat apply Forall_cons_2; try apply Forall_nil_2.

(** The current table has an entry for each of them. *)
Lemma PDO_TO_CURRENT_total code :
  0 <= code < 16 -> contains PDO_TO_CURRENT code = true.
Proof. intros Hcode. each_nibble code Hcode; reflexivity. Qed.

Lemma PDO_TO_CURRENT_values code level :
  PDO_TO_CURRENT !! code = Some level ->
  level ≠ "Unable to read current"%string.
Proof.
  intros Hlookup Hlevel. subst level.
  apply elem_of_list_to_map_2 in Hlookup.
  repeat (apply elem_of_cons in Hlookup as [Hlookup | Hlookup];
          [discriminate Hlookup |]).
  by apply elem_of_nil in Hlookup.
Qed.

(** ** C8: the current table *)

(** C8.  The current table has sixteen entries, from "0.5A" at 0b0000 to
    "5.0A" at 0b1111; codes 0b0110 and 0b0111 both give "2.0A", and any two
    other distinct four-bit codes give different levels. *)
Theorem PDO_TO_CURRENT_duplicate :
  PDO_TO_CURRENT !! 0x6 = Some "2.0A"%string /\
  PDO_TO_CURRENT !! 0x7 = Some "2.0A"%string /\
  PDO_TO_CURRENT !! 0x0 = Some "0.5A"%string /\
  PDO_TO_CURRENT !! 0xF = Some "5.0A"%string /\
  size PDO_TO_CURRENT = 16%nat /\
  forall i j, 0 <= i < 16 -> 0 <= j < 16 -> i ≠ j ->
    ~ (i = 0x6 /\ j = 0x7) -> ~ (i = 0x7 /\ j = 0x6) ->
    PDO_TO_CURRENT !! i ≠ PDO_TO_CURRENT !! j.
Proof.
  repeat (split; [reflexivity |]).
  intros i j Hi. revert j. each_nibble i Hi;
    intros j Hj; each_nibble j Hj;
    intros Hne H67 H76 Heq;
    solve [ by apply Hne | by apply H67 | by apply H76
          | vm_compute in Heq; discriminate Heq ].
Qed.

Lemma PDO_TO_CURRENT_duplicate_witness :
  PDO_TO_CURRENT !! 0x5 ≠ PDO_TO_CURRENT !! 0x6 /\
  PDO_TO_CURRENT !! 0x7 ≠ PDO_TO_CURRENT !! 0x8.
Proof.
  destruct PDO_TO_CURRENT_duplicate as (_ & _ & _ & _ & _ & Hdistinct).
  split; apply Hdistinct; lia.
Defined.

(** ** C10: the source current always decodes *)

(** C10.  Whatever PD_STATUS0 holds, its current field is a four-bit code,
    the table has a level for it, and [read_current] returns that level
    after reading the field twice; the level is never the string
    "Unable to read current". *)
Theorem read_current_total (s : bus) :
  let code := Bits_field pd_src_current (reg_value (regs s) _PD_STATUS0) in
  0 <= code < 16 /\
  exists level,
    PDO_TO_CURRENT !! code = Some level /\
    read_current s =
      (inr level, logged s [BusRead _PD_STATUS0; BusRead _PD_STATUS0]) /\
    level ≠ "Unable to read current"%string.
Proof.
  intros code.
  assert (Hcode : 0 <= code < 16) by apply pd_src_current_range.
  split; [exact Hcode |].
  pose proof (PDO_TO_CURRENT_total code Hcode) as Hin.
  unfold contains in Hin.
  destruct (PDO_TO_CURRENT !! code) as [level |] eqn:Hlevel; [| discriminate].
  exists level. split; [reflexivity |].
  split; [| by eapply PDO_TO_CURRENT_values].
  unfold read_current.
  rewrite (run_bind_ok _ _ _ _ _ (run_Bits_get pd_src_current s)).
  change (bits_address pd_src_current) with _PD_STATUS0. fold code.
  unfold contains. rewrite Hlevel.
  rewrite (run_bind_ok _ _ _ _ _ (run_Bits_get pd_src_current _)).
  change (bits_address pd_src_current) with _PD_STATUS0.
  rewrite regs_logged. fold code.
  rewrite (run_bind_ok _ _ _ _ _ (run_getitem_Some _ _ _ _ Hlevel)).
  by rewrite logged_logged.
Qed.

(** ** Writing the selection nibble *)

Lemma run_Bits_set_selected_pd code s :
  Bits_set selected_pd code s =
  (inr (),
   Bus (<[_SRC_PDO := selection_byte (reg_value (regs s) _SRC_PDO) code]>
          (regs s))
       (log s ++
        [BusRead _SRC_PDO;
         BusWrite _SRC_PDO
           (selection_byte (reg_value (regs s) _SRC_PDO) code)])).
Proof.
  unfold Bits_set. rewrite run_bind. unfold read_register, write_register.
  simpl. by rewrite <- app_assoc.
Qed.

(** The upper nibble of the stored byte is the code, the byte is a byte. *)
Lemma selection_byte_high old code :
  0 <= code < 16 -> Z.shiftr (selection_byte old code) 4 = code.
Proof.
  intros Hcode. unfold selection_byte.
  assert (Hc : code = Z.land code (Z.ones 4)).
  { rewrite Z.land_ones by lia. rewrite Z.mod_small; lia. }
  rewrite Hc at 2.
  change 255 with (Z.ones 8). change 0xF0 with (Z.shiftl (Z.ones 4) 4).
  Z.bitblast.
Qed.

(** The lower nibble is the one the register had. *)
Lemma selection_byte_low old code :
  Z.land (selection_byte old code) 0xF = Z.land old 0xF.
Proof.
  unfold selection_byte.
  change 255 with (Z.ones 8). change 0xF0 with (Z.shiftl (Z.ones 4) 4).
  change 0xF with (Z.ones 4).
  Z.bitblast.
  match goal with
  | Hneg : ?l < 0 |- context [Z.testbit code ?l] =>
      rewrite (Z.testbit_neg_r code l Hneg)
  end.
  match goal with
  | |- context [Z.testbit old ?i] => by destruct (Z.testbit old i)
  end.
Qed.

Lemma selection_byte_field old code :
  0 <= code < 16 -> Bits_field selected_pd (selection_byte old code) = code.
Proof.
  intros Hcode. unfold Bits_field, selection_byte.
  change (lowest_bit selected_pd) with 4.
  change (bits_mask selected_pd) with 0xF0.
  assert (Hc : code = Z.land code (Z.ones 4)).
  { rewrite Z.land_ones by lia. rewrite Z.mod_small; lia. }
  rewrite Hc at 2.
  change 255 with (Z.ones 8). change 0xF0 with (Z.shiftl (Z.ones 4) 4).
  Z.bitblast.
Qed.

Lemma reg_value_insert_eq m r v : reg_value (<[r := v]> m) r = v.
Proof. unfold reg_value. by rewrite lookup_insert_eq. Qed.

Lemma reg_value_insert_ne m r r' v :
  r ≠ r' -> reg_value (<[r := v]> m) r' = reg_value m r'.
Proof. intros Hne. unfold reg_value. by rewrite lookup_insert_ne. Qed.

Lemma VOLTAGE_TO_PDO_lookup voltage code :
  (voltage, code) ∈ selector_codes ->
  VOLTAGE_TO_PDO !! voltage = Some code /\ 0 <= code < 16.
Proof.
  intros Hin. unfold selector_codes in Hin.
  repeat (apply elem_of_cons in Hin as [Hin | Hin];
          [injection Hin as -> ->; split; [reflexivity | lia] |]).
  by apply elem_of_nil in Hin.
Qed.

Lemma VOLTAGE_TO_PDO_None voltage :
  voltage ∉ [5; 9; 12; 15; 18; 20] -> VOLTAGE_TO_PDO !! voltage = None.
Proof.
  intros Hout. apply not_elem_of_list_to_map_1. exact Hout.
Qed.

(** ** C3: selecting a voltage *)

(** A voltage of the table goes through to one read and one write. *)
Lemma run_value_setter_valid voltage code s :
  VOLTAGE_TO_PDO !! voltage = Some code ->
  value_setter voltage s =
    (inr (),
     Bus (<[_SRC_PDO := selection_byte (reg_value (regs s) _SRC_PDO) code]>
            (regs s))
         (log s ++
          [BusRead _SRC_PDO;
           BusWrite _SRC_PDO
             (selection_byte (reg_value (regs s) _SRC_PDO) code)])).
Proof.
  intros Hlookup. unfold value_setter, contains. rewrite Hlookup.
  change (negb true) with false. cbv iota.
  rewrite (run_bind_ok _ _ _ _ _ (run_getitem_Some _ _ _ _ Hlookup)).
  apply run_Bits_set_selected_pd.
Qed.

(** C3.  For a voltage of the table (5, 9, 12, 15, 18, 20) the setter reads
    SRC_PDO once and writes it once, and the byte it writes carries the
    documented selector code (0b0001, 0b0010, 0b0011, 0b1000, 0b1001,
    0b1010) in bits 4 to 7.  For any other voltage it raises ValueError and
    leaves the bus as it was: no read, no write. *)
Theorem value_setter_spec (voltage : Z) (s : bus) :
  (forall code, (voltage, code) ∈ selector_codes ->
     exists byte,
       value_setter voltage s =
         (inr (),
          Bus (<[_SRC_PDO := byte]> (regs s))
              (log s ++ [BusRead _SRC_PDO; BusWrite _SRC_PDO byte])) /\
       Bits_field selected_pd byte = code /\
       Z.shiftr byte 4 = code) /\
  (voltage ∉ [5; 9; 12; 15; 18; 20] ->
     value_setter voltage s = (inl (invalid_voltage voltage), s)).
Proof.
  split.
  - intros code Hin.
    apply VOLTAGE_TO_PDO_lookup in Hin as [Hlookup Hcode].
    exists (selection_byte (reg_value (regs s) _SRC_PDO) code).
    split; [| split].
    + by apply run_value_setter_valid.
    + by apply selection_byte_field.
    + by apply selection_byte_high.
  - intros Hout. apply VOLTAGE_TO_PDO_None in Hout.
    unfold value_setter, contains. by rewrite Hout.
Qed.

Lemma value_setter_spec_witness :
  (exists byte,
     value_setter 15 (Bus {[ _SRC_PDO := 0x07 ]} []) =
       (inr (),
        Bus (<[_SRC_PDO := byte]> {[ _SRC_PDO := 0x07 ]})
            [BusRead _SRC_PDO; BusWrite _SRC_PDO byte]) /\
     Bits_field selected_pd byte = 0x8 /\
     Z.shiftr byte 4 = 0x8) /\
  value_setter 7 (Bus {[ _SRC_PDO := 0x07 ]} []) =
    (inl (invalid_voltage 7), Bus {[ _SRC_PDO := 0x07 ]} []).
Proof.
  split.
  - refine (proj1 (value_setter_spec 15 (Bus {[ _SRC_PDO := 0x07 ]} [])) 0x8 _).
    compute_done.
  - refine (proj2 (value_setter_spec 7 (Bus {[ _SRC_PDO := 0x07 ]} [])) _).
    compute_done.
Defined.

(** ** C5: selecting 9 V touches the upper nibble only *)

(** C5.  After [value = 9], bits 4 to 7 of SRC_PDO read back as 0b0010, bits
    0 to 3 are those the register had before, and no other register
    changed; the setter did one read and one write of SRC_PDO. *)
Theorem select_9_upper_nibble_only (s : bus) :
  exists s',
    value_setter 9 s = (inr (), s') /\
    Bits_get selected_pd s' = (inr 0x2, logged s' [BusRead _SRC_PDO]) /\
    Z.land (Z.shiftr (reg_value (regs s') _SRC_PDO) 4) 0xF = 0x2 /\
    Z.land (reg_value (regs s') _SRC_PDO) 0xF =
      Z.land (reg_value (regs s) _SRC_PDO) 0xF /\
    (forall r, r ≠ _SRC_PDO -> reg_value (regs s') r = reg_value (regs s) r) /\
    log s' =
      log s ++
      [BusRead _SRC_PDO;
       BusWrite _SRC_PDO (reg_value (regs s') _SRC_PDO)].
Proof.
  eexists. split.
  { apply (run_value_setter_valid 9 0x2). reflexivity. }
  simpl regs. simpl log. rewrite reg_value_insert_eq.
  repeat split.
  - rewrite run_Bits_get. change (bits_address selected_pd) with _SRC_PDO.
    simpl regs. rewrite reg_value_insert_eq.
    by rewrite selection_byte_field by lia.
  - by rewrite selection_byte_high by lia.
  - apply selection_byte_low.
  - intros r Hr. by apply reg_value_insert_ne.
Qed.

(** ** C4: the capability query *)

(** C4.  [get_source_capabilities] writes 0x02 to GO_COMMAND once, then
    sleeps, then reads SRC_PDO once and returns what it read; these are its
    only effects, in this order, and the sleep it asks for is at least ten
    milliseconds. *)
Theorem get_source_capabilities_sequence (s : bus) :
  exists seconds,
    get_source_capabilities s =
      (inr (reg_value (regs s) _SRC_PDO),
       Bus (<[_GO_COMMAND := 0x02]> (regs s))
           (log s ++
            [BusWrite _GO_COMMAND 0x02; Sleep seconds; BusRead _SRC_PDO])) /\
    (10 # 1000 <= seconds)%Q.
Proof.
  exists 0.01%Q. split.
  - unfold get_source_capabilities, Struct_set, Struct_get, sleep.
    change ((0 <=? 2) && (2 <=? 255)) with true. cbv iota.
    rewrite run_bind. unfold write_register.
    rewrite run_bind. unfold emit, read_register.
    cbn [regs log struct_address _go_command _src_pdo UnaryStruct].
    rewrite reg_value_insert_ne by discriminate.
    by rewrite <- !app_assoc.
  - unfold Qle; simpl; lia.
Qed.

(** ** C9: reading [value] *)

(** C9.  However many frames the interpreter allows, reading the property
    [value] ends in RecursionError and never in a returned value, and the
    bus is untouched: no register is read. *)
Theorem value_getter_never_returns (depth : nat) (s : bus) :
  value depth s = (inl RecursionError, s) /\
  forall (v : Z) (s' : bus), value depth s ≠ (inr v, s').
Proof.
  assert (Hraise : value depth s = (inl RecursionError, s)).
  { induction depth as [| depth IH]; [reflexivity | exact IH]. }
  split; [exact Hraise |].
  intros v s' Hret. rewrite Hraise in Hret. discriminate Hret.
Qed.

(** ** C7: the available voltages *)

(** A one-bit descriptor tests the bit it names. *)
Lemma Bit_field_testbit address bit byte :
  0 <= bit -> Bit_field (ROBit address bit) byte = Z.testbit byte (bit mod 8).
Proof.
  intros Hbit. unfold Bit_field, ROBit; simpl.
  assert (Hk : 0 <= bit mod 8) by (apply Z.mod_pos_bound; lia).
  generalize dependent (bit mod 8). intros k Hk.
  rewrite Z.shiftl_1_l.
  destruct (Z.testbit byte k) eqn:Hset.
  - apply negb_true_iff, Z.eqb_neq. intros Hzero.
    apply (f_equal (fun x => Z.testbit x k)) in Hzero.
    rewrite Z.land_spec, Hset, Z.pow2_bits_true, Z.bits_0 in Hzero by lia.
    discriminate Hzero.
  - apply negb_false_iff, Z.eqb_eq. apply Z.bits_inj'. intros n Hn.
    rewrite Z.land_spec, Z.bits_0, Z.pow2_bits_eqb by lia.
    destruct (Z.eqb_spec k n) as [-> |]; [by rewrite Hset | apply andb_false_r].
Qed.

Lemma run_report voltage (detected : bool) found s :
  report (voltage, detected) found s =
  (inr (if detected then found ++ [voltage] else found),
   logged s
     [Print (pretty voltage +:+ "V:") " ";
      Print (if detected then "Available" else "Unavailable") newline]).
Proof. unfold report. destruct detected; by run_effects. Qed.

(** The loop keeps the voltages whose flag is set, in the order of the
    list, and leaves the registers alone. *)
Lemma for_each_report items found s :
  exists s',
    for_each items report found s =
      (inr (found ++ (List.filter snd items).*1), s') /\
    regs s' = regs s.
Proof.
  revert found s. induction items as [| [voltage detected] items IH];
    intros found s.
  - exists s. simpl. by rewrite app_nil_r.
  - cbn [for_each]. rewrite run_bind, run_report.
    match goal with
    | |- context [for_each items report ?found' ?s1] =>
        destruct (IH found' s1) as (s' & Hrun & Hregs)
    end.
    exists s'. rewrite Hrun. split; [| by rewrite Hregs].
    destruct detected; simpl; [by rewrite <- app_assoc | reflexivity].
Qed.

Section Kept.

Context {A : Type}.
Implicit Types (items : list (A * bool)) (x : A).

Lemma elem_of_kept items x :
  x ∈ (List.filter snd items).*1 <-> (x, true) ∈ items.
Proof.
  rewrite list_elem_of_fmap. split.
  - intros ([x' flag] & -> & Hin).
    apply list_elem_of_In, filter_In in Hin as [Hin Hflag].
    simpl in Hflag; subst flag. by apply list_elem_of_In.
  - intros Hin. exists (x, true). split; [reflexivity |].
    apply list_elem_of_In, filter_In. split; [| reflexivity].
    by apply list_elem_of_In.
Qed.

Lemma Forall_kept (P : A -> Prop) items :
  Forall P items.*1 -> Forall P (List.filter snd items).*1.
Proof.
  induction items as [| [x flag] items IH]; [done |].
  intros Hall. apply Forall_cons in Hall as [Hx Hall].
  destruct flag; simpl; [apply Forall_cons; split |]; auto.
Qed.

Lemma StronglySorted_kept (R : A -> A -> Prop) items :
  StronglySorted R items.*1 -> StronglySorted R (List.filter snd items).*1.
Proof.
  induction items as [| [x flag] items IH]; [done |].
  intros Hsorted. apply StronglySorted_inv in Hsorted as [Hsorted Hx].
  destruct flag; simpl; [| by apply IH].
  apply SSorted_cons; [by apply IH | by apply Forall_kept].
Qed.

End Kept.

(** C7.  [available_voltages] returns the voltages among 5, 9, 12, 15, 18
    and 20 whose capability register has bit 7 set, and only those, in
    ascending order, and leaves the registers as they were; with the bits
    5V=1, 9V=0, 12V=1, 15V=0, 18V=0, 20V=1 it returns [5; 12; 20]. *)
Theorem available_voltages_detected :
  (forall s : bus,
     exists found s',
       available_voltages s = (inr found, s') /\
       regs s' = regs s /\
       found =
         (List.filter snd
            (map (fun '(voltage, register) =>
                    (voltage, detection_bit s register))
                 capability_registers)).*1 /\
       StronglySorted Z.lt found /\
       forall voltage,
         voltage ∈ found <->
         exists register,
           (voltage, register) ∈ capability_registers /\
           detection_bit s register = true) /\
  (available_voltages capabilities_example).1 = inr [5; 12; 20].
Proof.
  split; [| reflexivity].
  intros s.
  set (items := map (fun '(voltage, register) =>
                       (voltage, detection_bit s register))
                    capability_registers).
  assert (Hrun : exists s',
             available_voltages s = (inr (List.filter snd items).*1, s') /\
             regs s' = regs s).
  { unfold available_voltages.
    rewrite run_bind, run_print. cbv beta iota.
    repeat (rewrite run_bind, run_Bit_get; cbv beta iota).
    rewrite !regs_logged.
    unfold voltage_detected_5v, voltage_detected_9v, voltage_detected_12v,
      voltage_detected_15v, voltage_detected_18v, voltage_detected_20v.
    rewrite !Bit_field_testbit by lia.
    match goal with
    | |- context [for_each ?l ?body ?found ?s1] =>
        change l with items;
        change body with report;
        destruct (for_each_report items found s1) as (s' & Hloop & Hregs)
    end.
    exists s'. by rewrite Hloop. }
  destruct Hrun as (s' & Hrun & Hregs).
  exists (List.filter snd items).*1, s'.
  split; [exact Hrun |]. split; [exact Hregs |]. split; [reflexivity |].
  split.
  - apply StronglySorted_kept. unfold items; simpl.
    repeat (apply SSorted_cons; [| repeat (apply Forall_cons; split; [lia |]);
                                   apply Forall_nil_2]).
    apply SSorted_nil.
  - intros voltage. rewrite elem_of_kept. unfold items.
    rewrite list_elem_of_fmap. split.
    + intros ([voltage' register] & Heq & Hin).
      injection Heq as -> Hbit. by exists register.
    + intros (register & Hin & Hbit).
      exists (voltage, register). by rewrite Hbit.
Qed.

(** * Further properties of the driver *)

(** ** The two voltage encodings *)

Lemma VOLTAGE_TO_PDO_inv voltage code :
  VOLTAGE_TO_PDO !! voltage = Some code -> (voltage, code) ∈ selector_codes.
Proof. apply elem_of_list_to_map_2. Qed.

Ltac each_selector Hin :=
  unfold selector_codes in Hin;
  repeat (apply elem_of_cons in Hin as [Hin | Hin];
          [injection Hin as -> -> |]);
  [.. | by apply elem_of_nil in Hin].

(** X1.  The code the setter writes for a voltage is the code the status
    register uses for that voltage only up to 12 V; the codes written for
    15, 18 and 20 V are no key of PDO_TO_VOLTAGE at all. *)
Theorem selector_code_versus_status_code (voltage code : Z) :
  VOLTAGE_TO_PDO !! voltage = Some code ->
  (voltage <= 12 -> PDO_TO_VOLTAGE !! code = Some (PyInt voltage)) /\
  (12 < voltage -> PDO_TO_VOLTAGE !! code = None).
Proof.
  intros Hin. apply VOLTAGE_TO_PDO_inv in Hin.
  each_selector Hin; split; intros Hv; first [reflexivity | lia].
Qed.

Lemma selector_code_versus_status_code_witness :
  PDO_TO_VOLTAGE !! 0x3 = Some (PyInt 12) /\ PDO_TO_VOLTAGE !! 0x8 = None.
Proof.
  split.
  - refine (proj1 (selector_code_versus_status_code 12 0x3 _) _);
      [reflexivity | lia].
  - refine (proj2 (selector_code_versus_status_code 15 0x8 _) _);
      [reflexivity | lia].
Defined.

(** X2.  VOLTAGE_TO_PDO is strictly increasing: a higher voltage has a
    higher selector code, so no two voltages share a code, and every code is
    a nonzero four-bit value. *)
Theorem VOLTAGE_TO_PDO_increasing (v w cv cw : Z) :
  VOLTAGE_TO_PDO !! v = Some cv ->
  VOLTAGE_TO_PDO !! w = Some cw ->
  (v < w <-> cv < cw) /\ (cv = cw -> v = w) /\ 0 < cv < 16.
Proof.
  intros Hv Hw.
  apply VOLTAGE_TO_PDO_inv in Hv. apply VOLTAGE_TO_PDO_inv in Hw.
  each_selector Hv; each_selector Hw; lia.
Qed.

Lemma VOLTAGE_TO_PDO_increasing_witness :
  (12 < 15 <-> 0x3 < 0x8) /\ (0x3 = 0x8 -> 12 = 15) /\ 0 < 0x3 < 16.
Proof.
  apply (VOLTAGE_TO_PDO_increasing 12 15 0x3 0x8); reflexivity.
Defined.

(** ** The fields of the two status registers *)

(** A test that passes on each of the 256 bytes holds of every byte. *)
Lemma byte_check (test : Z -> bool) :
  forallb test (seqZ 0 256) = true ->
  forall byte, 0 <= byte < 256 -> test byte = true.
Proof.
  intros Hall byte Hbyte.
  rewrite forallb_forall in Hall.
  apply Hall, list_elem_of_In, elem_of_seqZ. lia.
Qed.

(** X3.  The five fields read from PD_STATUS1 do not overlap and together
    cover the byte: the register content is recovered from CC direction
    (bit 7), attachment (bit 6), response code (bits 3 to 5), 5V contract
    voltage flag (bit 2) and 5V contract current (bits 0 and 1); the
    response code is below 8 and the current code below 4. *)
Theorem status1_fields_partition (byte : Z) :
  0 <= byte < 256 ->
  byte =
    128 * Z.b2z (Bit_field cc_direction byte) +
    64 * Z.b2z (Bit_field attachment_status byte) +
    8 * Bits_field pd_response byte +
    4 * Z.b2z (Bit_field contract_v_5v byte) +
    Bits_field contract_a_5v byte /\
  0 <= Bits_field pd_response byte < 8 /\
  0 <= Bits_field contract_a_5v byte < 4.
Proof.
  intros Hbyte.
  pose proof
    (byte_check
       (fun b =>
          (b =? 128 * Z.b2z (Bit_field cc_direction b) +
                64 * Z.b2z (Bit_field attachment_status b) +
                8 * Bits_field pd_response b +
                4 * Z.b2z (Bit_field contract_v_5v b) +
                Bits_field contract_a_5v b) &&
          (0 <=? Bits_field pd_response b) &&
          (Bits_field pd_response b <? 8) &&
          (0 <=? Bits_field contract_a_5v b) &&
          (Bits_field contract_a_5v b <? 4))
       ltac:(vm_compute; reflexivity) byte Hbyte) as Hcheck.
  cbv beta in Hcheck.
  rewrite !andb_true_iff, Z.eqb_eq, !Z.leb_le, !Z.ltb_lt in Hcheck.
  tauto.
Qed.

Lemma status1_fields_partition_witness :
  status1_example =
    128 * Z.b2z (Bit_field cc_direction status1_example) +
    64 * Z.b2z (Bit_field attachment_status status1_example) +
    8 * Bits_field pd_response status1_example +
    4 * Z.b2z (Bit_field contract_v_5v status1_example) +
    Bits_field contract_a_5v status1_example /\
  0 <= Bits_field pd_response status1_example < 8 /\
  0 <= Bits_field contract_a_5v status1_example < 4.
Proof.
  apply (status1_fields_partition status1_example).
  unfold status1_example. lia.
Defined.

(** X4.  PD_STATUS0 splits into the source-voltage code (upper nibble) and
    the source-current code (lower nibble) with nothing lost: the byte is
    sixteen times the voltage code plus the current code, both below 16. *)
Theorem status0_fields_partition (byte : Z) :
  0 <= byte < 256 ->
  byte = 16 * Bits_field pd_src_voltage byte + Bits_field pd_src_current byte /\
  0 <= Bits_field pd_src_voltage byte < 16 /\
  0 <= Bits_field pd_src_current byte < 16.
Proof.
  intros Hbyte.
  pose proof
    (byte_check
       (fun b =>
          (b =? 16 * Bits_field pd_src_voltage b + Bits_field pd_src_current b) &&
          (0 <=? Bits_field pd_src_voltage b) &&
          (Bits_field pd_src_voltage b <? 16) &&
          (0 <=? Bits_field pd_src_current b) &&
          (Bits_field pd_src_current b <? 16))
       ltac:(vm_compute; reflexivity) byte Hbyte) as Hcheck.
  cbv beta in Hcheck.
  rewrite !andb_true_iff, !Z.eqb_eq, !Z.leb_le, !Z.ltb_lt in Hcheck.
  tauto.
Qed.

Lemma status0_fields_partition_witness :
  0x2B = 16 * Bits_field pd_src_voltage 0x2B + Bits_field pd_src_current 0x2B /\
  0 <= Bits_field pd_src_voltage 0x2B < 16 /\
  0 <= Bits_field pd_src_current 0x2B < 16.
Proof. apply (status0_fields_partition 0x2B). lia. Defined.

(** ** The status getters on any register content *)

Lemma pd_src_voltage_range reg :
  0 <= Bits_field pd_src_voltage reg < 16.
Proof.
  rewrite pd_src_voltage_field.
  assert (Hfield : Z.shiftr (Z.land reg 0xF0) 4 =
                   Z.land (Z.shiftr reg 4) (Z.ones 4)).
  { change 0xF0 with (Z.shiftl (Z.ones 4) 4). Z.bitblast. }
  rewrite Hfield, Z.land_ones by lia. apply Z.mod_pos_bound. lia.
Qed.

Lemma pd_response_range reg :
  0 <= Bits_field pd_response reg < 8.
Proof.
  rewrite pd_response_field.
  assert (Hfield : Z.shiftr (Z.land reg 0x38) 3 =
                   Z.land (Z.shiftr reg 3) (Z.ones 3)).
  { change 0x38 with (Z.shiftl (Z.ones 3) 3). Z.bitblast. }
  rewrite Hfield, Z.land_ones by lia. apply Z.mod_pos_bound. lia.
Qed.

(** X5.  [read_voltage] never raises.  It sleeps, reads the voltage field,
    and if the code is a key of PDO_TO_VOLTAGE (which is the case exactly for
    codes 0 to 6) reads the field a second time and returns the table entry;
    otherwise it returns the marker after the single read.  The registers
    are left as they were. *)
Theorem read_voltage_decodes (s : bus) :
  let code := Bits_field pd_src_voltage (reg_value (regs s) _PD_STATUS0) in
  (forall value,
     PDO_TO_VOLTAGE !! code = Some value ->
     read_voltage s =
       (inr value,
        logged s [Sleep 0.01; BusRead _PD_STATUS0; BusRead _PD_STATUS0])) /\
  (PDO_TO_VOLTAGE !! code = None ->
     read_voltage s =
       (inr unable_to_read_voltage,
        logged s [Sleep 0.01; BusRead _PD_STATUS0])) /\
  (is_Some (PDO_TO_VOLTAGE !! code) <-> code <= 6) /\
  (forall e s', read_voltage s ≠ (inl e, s')).
Proof.
  intros code.
  assert (Hsome : forall value,
             PDO_TO_VOLTAGE !! code = Some value ->
             read_voltage s =
               (inr value,
                logged s [Sleep 0.01; BusRead _PD_STATUS0; BusRead _PD_STATUS0])).
  { intros value Hvalue. unfold read_voltage. run_effects. fold code.
    unfold contains. rewrite Hvalue.
    rewrite (run_bind_ok _ _ _ _ _ (run_Bits_get pd_src_voltage _)).
    change (bits_address pd_src_voltage) with _PD_STATUS0.
    simpl regs. fold code.
    rewrite (run_bind_ok _ _ _ _ _ (run_getitem_Some _ _ _ _ Hvalue)).
    unfold mret, M_ret, ret, logged; simpl. by rewrite <- !app_assoc. }
  assert (Hnone : PDO_TO_VOLTAGE !! code = None ->
             read_voltage s =
               (inr unable_to_read_voltage,
                logged s [Sleep 0.01; BusRead _PD_STATUS0])).
  { intros Hvalue. unfold read_voltage. run_effects. fold code.
    unfold contains. rewrite Hvalue.
    unfold mret, M_ret, ret, logged. by rewrite <- app_assoc. }
  split; [exact Hsome |]. split; [exact Hnone |]. split.
  - pose proof (pd_src_voltage_range (reg_value (regs s) _PD_STATUS0))
      as Hcode. fold code in Hcode.
    clearbody code. clear Hsome Hnone.
    each_nibble code Hcode;
      (split; [intros [value Hvalue]; first [lia | discriminate Hvalue]
              | intros Hle; first [lia | by eexists]]).
  - intros e s' Hraise.
    destruct (PDO_TO_VOLTAGE !! code) as [value |] eqn:Hvalue.
    + rewrite (Hsome value eq_refl) in Hraise. discriminate Hraise.
    + rewrite (Hnone eq_refl) in Hraise. discriminate Hraise.
Qed.

Lemma read_voltage_decodes_witness :
  read_voltage (status0_with_voltage 0x4) =
  (inr (PyInt 15),
   logged (status0_with_voltage 0x4)
     [Sleep 0.01; BusRead _PD_STATUS0; BusRead _PD_STATUS0]).
Proof.
  refine (proj1 (read_voltage_decodes (status0_with_voltage 0x4)) _ _).
  reflexivity.
Defined.

(** X6.  The response field is a three-bit code.  [get_response] returns
    the table entry after one register read whenever the code is a key of
    PDO_RESPONSE_CODES, which is the case exactly for codes 0, 1, 3, 4 and 5,
    and no two codes share a message. *)
Theorem get_response_decodes (s : bus) :
  let code := Bits_field pd_response (reg_value (regs s) _PD_STATUS1) in
  0 <= code < 8 /\
  (forall msg,
     PDO_RESPONSE_CODES !! code = Some msg ->
     get_response s = (inr msg, logged s [BusRead _PD_STATUS1])) /\
  (is_Some (PDO_RESPONSE_CODES !! code) <->
   code = 0 \/ code = 1 \/ code = 3 \/ code = 4 \/ code = 5) /\
  (forall c1 c2 msg,
     PDO_RESPONSE_CODES !! c1 = Some msg ->
     PDO_RESPONSE_CODES !! c2 = Some msg -> c1 = c2).
Proof.
  intros code.
  pose proof (pd_response_range (reg_value (regs s) _PD_STATUS1)) as Hcode.
  fold code in Hcode.
  split; [exact Hcode |]. split; [| split].
  - intros msg Hmsg. unfold get_response.
    rewrite (run_bind_ok _ _ _ _ _ (run_Bits_get pd_response s)).
    change (bits_address pd_response) with _PD_STATUS1. fold code.
    by rewrite (run_bind_ok _ _ _ _ _ (run_getitem_Some _ _ _ _ Hmsg)).
  - clearbody code.
    assert (Hnibble : 0 <= code < 16) by lia.
    revert Hcode. each_nibble code Hnibble; intros Hcode;
      (split; [intros [msg Hmsg]; first [lia | discriminate Hmsg]
              | intros Hcases; first [by eexists | lia]]).
  - intros c1 c2 msg H1 H2.
    apply elem_of_list_to_map_2 in H1. apply elem_of_list_to_map_2 in H2.
    repeat (apply elem_of_cons in H1 as [H1 | H1]; [injection H1 as -> -> |]);
      [.. | by apply elem_of_nil in H1];
      (repeat (apply elem_of_cons in H2 as [H2 | H2];
               [first [discriminate H2 | by injection H2 as ->] |]);
       by apply elem_of_nil in H2).
Qed.

Lemma get_response_decodes_witness :
  get_response (status1_with_response 0x5) =
  (inr "TRANSACTION FAILED, NO GOOD CRC"%string,
   logged (status1_with_response 0x5) [BusRead _PD_STATUS1]).
Proof.
  refine (proj1 (proj2 (get_response_decodes (status1_with_response 0x5))) _ _).
  reflexivity.
Defined.

(** X7.  On any content of PD_STATUS1 each of the four status getters does
    one register read and changes no register: [get_cc_direction] returns
    bit 7 and then prints "CC2 connected" when it is set and "CC1 connected"
    when it is clear, [is_attached] returns bit 6, [get_5v_contract_volts]
    bit 2, and [get_5v_contract_amps] the content modulo 4. *)
Theorem status1_getters (s : bus) :
  let byte := reg_value (regs s) _PD_STATUS1 in
  get_cc_direction s =
    (inr (Z.testbit byte 7),
     logged s [BusRead _PD_STATUS1;
               Print (cc_message (Z.testbit byte 7)) newline]) /\
  is_attached s = (inr (Z.testbit byte 6), logged s [BusRead _PD_STATUS1]) /\
  get_5v_contract_volts s =
    (inr (Z.testbit byte 2), logged s [BusRead _PD_STATUS1]) /\
  get_5v_contract_amps s = (inr (byte mod 4), logged s [BusRead _PD_STATUS1]).
Proof.
  intros byte.
  unfold get_cc_direction, is_attached, get_5v_contract_volts,
    get_5v_contract_amps.
  rewrite !run_bind, !run_Bit_get, !run_Bits_get. cbv beta iota.
  change (bit_address cc_direction) with _PD_STATUS1.
  change (bit_address attachment_status) with _PD_STATUS1.
  change (bit_address contract_v_5v) with _PD_STATUS1.
  change (bits_address contract_a_5v) with _PD_STATUS1.
  fold byte.
  unfold cc_direction, attachment_status, contract_v_5v.
  rewrite !Bit_field_testbit by lia.
  change (7 mod 8) with 7. change (6 mod 8) with 6. change (2 mod 8) with 2.
  repeat split.
  - destruct (Z.testbit byte 7); by run_effects.
  - unfold Bits_field; simpl.
    rewrite Z.shiftr_0_r. change (Z.shiftl (Z.shiftl 1 2 - 1) 0) with (Z.ones 2).
    by rewrite Z.land_ones by lia.
Qed.

(** ** Selecting, requesting and querying *)

(** A second selection overwrites the first and keeps the low nibble. *)
Lemma selection_byte_overwrite old c1 c2 :
  selection_byte (selection_byte old c1) c2 = selection_byte old c2.
Proof.
  unfold selection_byte.
  change 255 with (Z.ones 8). change 0xF0 with (Z.shiftl (Z.ones 4) 4).
  Z.bitblast.
  repeat match goal with
  | Hneg : ?l < 0 |- context [Z.testbit ?c ?l] =>
      rewrite (Z.testbit_neg_r c l Hneg)
  end.
  match goal with
  | |- context [Z.testbit old ?i] => by destruct (Z.testbit old i)
  end.
Qed.

(** X8.  Selecting a voltage and then another leaves the registers exactly
    as selecting the second one alone does (so selecting the same voltage
    twice changes nothing the second time); the selection field then reads
    back as the code of the second voltage. *)
Theorem value_setter_last_wins (v w cv cw : Z) (s : bus) :
  VOLTAGE_TO_PDO !! v = Some cv ->
  VOLTAGE_TO_PDO !! w = Some cw ->
  exists s1 s2,
    value_setter v s = (inr (), s1) /\
    value_setter w s1 = (inr (), s2) /\
    regs s2 = regs (value_setter w s).2 /\
    Bits_get selected_pd s2 = (inr cw, logged s2 [BusRead _SRC_PDO]).
Proof.
  intros Hv Hw.
  eexists. eexists.
  split; [by apply run_value_setter_valid |].
  split; [by apply run_value_setter_valid |].
  rewrite (run_value_setter_valid w cw s Hw).
  cbn [regs snd]. rewrite reg_value_insert_eq, selection_byte_overwrite.
  split; [apply insert_insert_eq |].
  rewrite run_Bits_get. change (bits_address selected_pd) with _SRC_PDO.
  cbn [regs]. rewrite reg_value_insert_eq, selection_byte_field; [done |].
  apply VOLTAGE_TO_PDO_inv, VOLTAGE_TO_PDO_lookup in Hw. tauto.
Qed.

Lemma value_setter_last_wins_witness :
  exists s1 s2,
    value_setter 20 status1_bus = (inr (), s1) /\
    value_setter 5 s1 = (inr (), s2) /\
    regs s2 = regs (value_setter 5 status1_bus).2 /\
    Bits_get selected_pd s2 = (inr 0x1, logged s2 [BusRead _SRC_PDO]).
Proof.
  apply (value_setter_last_wins 20 5 0xA 0x1 status1_bus); reflexivity.
Defined.

(** X9.  [value = v] followed by [set_value()] makes three bus accesses, a
    read and a write of SRC_PDO and a write of 0x01 to GO_COMMAND; afterwards
    SRC_PDO still carries the selector code of [v] and GO_COMMAND holds 1.
    [reset()] at that point would do exactly what [set_value()] does. *)
Theorem set_value_after_selection (v c : Z) (s : bus) :
  VOLTAGE_TO_PDO !! v = Some c ->
  exists byte s1 s2,
    value_setter v s = (inr (), s1) /\
    set_value s1 = (inr (), s2) /\
    log s2 =
      log s ++
      [BusRead _SRC_PDO; BusWrite _SRC_PDO byte; BusWrite _GO_COMMAND 0x01] /\
    reg_value (regs s2) _SRC_PDO = byte /\
    Bits_field selected_pd byte = c /\
    reg_value (regs s2) _GO_COMMAND = 0x01 /\
    (forall r, r ≠ _SRC_PDO -> r ≠ _GO_COMMAND ->
               reg_value (regs s2) r = reg_value (regs s) r) /\
    reset s1 = set_value s1.
Proof.
  intros Hv.
  exists (selection_byte (reg_value (regs s) _SRC_PDO) c).
  eexists. eexists.
  split; [by apply run_value_setter_valid |].
  split; [reflexivity |].
  cbn [regs log]. repeat split.
  - by rewrite <- app_assoc.
  - rewrite reg_value_insert_ne by discriminate. apply reg_value_insert_eq.
  - apply selection_byte_field.
    apply VOLTAGE_TO_PDO_inv, VOLTAGE_TO_PDO_lookup in Hv. tauto.
  - apply reg_value_insert_eq.
  - intros r Hsrc Hgo. by rewrite !reg_value_insert_ne.
Qed.

Lemma set_value_after_selection_witness :
  exists byte s1 s2,
    value_setter 12 status1_bus = (inr (), s1) /\
    set_value s1 = (inr (), s2) /\
    log s2 =
      log status1_bus ++
      [BusRead _SRC_PDO; BusWrite _SRC_PDO byte; BusWrite _GO_COMMAND 0x01] /\
    reg_value (regs s2) _SRC_PDO = byte /\
    Bits_field selected_pd byte = 0x3 /\
    reg_value (regs s2) _GO_COMMAND = 0x01 /\
    (forall r, r ≠ _SRC_PDO -> r ≠ _GO_COMMAND ->
               reg_value (regs s2) r = reg_value (regs status1_bus) r) /\
    reset s1 = set_value s1.
Proof.
  apply (set_value_after_selection 12 0x3 status1_bus). reflexivity.
Defined.

(** X10.  [get_source_capabilities] returns the whole SRC_PDO byte, the
    register the selection lives in: called after [value = v] it returns a
    byte whose bits 4 to 7 are the selector code of [v] and whose bits 0 to 3
    are those SRC_PDO had before the selection; only GO_COMMAND changes. *)
Theorem get_source_capabilities_after_selection (v c : Z) (s : bus) :
  VOLTAGE_TO_PDO !! v = Some c ->
  exists byte s1 s2,
    value_setter v s = (inr (), s1) /\
    get_source_capabilities s1 = (inr byte, s2) /\
    Bits_field selected_pd byte = c /\
    Z.land byte 0xF = Z.land (reg_value (regs s) _SRC_PDO) 0xF /\
    forall r, r ≠ _GO_COMMAND -> reg_value (regs s2) r = reg_value (regs s1) r.
Proof.
  intros Hv.
  exists (selection_byte (reg_value (regs s) _SRC_PDO) c).
  eexists. eexists.
  split; [by apply run_value_setter_valid |].
  split.
  - unfold get_source_capabilities, Struct_set, Struct_get, sleep.
    change ((0 <=? 2) && (2 <=? 255)) with true. cbv iota.
    rewrite run_bind. unfold write_register.
    rewrite run_bind. unfold emit, read_register.
    cbn [regs log struct_address _go_command _src_pdo UnaryStruct].
    rewrite reg_value_insert_ne by discriminate.
    rewrite reg_value_insert_eq. reflexivity.
  - split; [| split].
    + apply selection_byte_field.
      apply VOLTAGE_TO_PDO_inv, VOLTAGE_TO_PDO_lookup in Hv. tauto.
    + apply selection_byte_low.
    + intros r Hr. cbn [regs]. by rewrite reg_value_insert_ne.
Qed.

Lemma get_source_capabilities_after_selection_witness :
  exists byte s1 s2,
    value_setter 18 status1_bus = (inr (), s1) /\
    get_source_capabilities s1 = (inr byte, s2) /\
    Bits_field selected_pd byte = 0x9 /\
    Z.land byte 0xF = Z.land (reg_value (regs status1_bus) _SRC_PDO) 0xF /\
    forall r, r ≠ _GO_COMMAND -> reg_value (regs s2) r = reg_value (regs s1) r.
Proof.
  apply (get_source_capabilities_after_selection 18 0x9 status1_bus).
  reflexivity.
Defined.

(** ** Bus traffic of [available_voltages] *)

Lemma for_each_report_log items found s :
  for_each items report found s =
  (inr (found ++ (List.filter snd items).*1), logged s (report_log items)).
Proof.
  revert found s. induction items as [| [voltage detected] items IH];
    intros found s.
  - simpl. unfold logged. by rewrite !app_nil_r; destruct s.
  - cbn [for_each]. rewrite run_bind, run_report. rewrite IH.
    rewrite logged_logged. f_equal.
    destruct detected; simpl; [by rewrite <- app_assoc | reflexivity].
Qed.

Lemma run_available_voltages s :
  available_voltages s =
  (inr (List.filter snd (detected_items s)).*1,
   logged s
     (Print "The following voltages are available:" newline ::
      map BusRead
        [_SRC_PDO_5V; _SRC_PDO_9V; _SRC_PDO_12V;
         _SRC_PDO_15V; _SRC_PDO_18V; _SRC_PDO_20V] ++
      report_log (detected_items s))).
Proof.
  unfold available_voltages.
  rewrite run_bind, run_print. cbv beta iota.
  repeat (rewrite run_bind, run_Bit_get; cbv beta iota).
  rewrite !regs_logged.
  unfold voltage_detected_5v, voltage_detected_9v, voltage_detected_12v,
    voltage_detected_15v, voltage_detected_18v, voltage_detected_20v.
  rewrite !Bit_field_testbit by lia.
  match goal with
  | |- context [for_each ?l ?body ?found ?s1] =>
      change l with (detected_items s);
      change body with report
  end.
  rewrite for_each_report_log, !logged_logged. reflexivity.
Qed.

(** X11.  [available_voltages] prints its heading, then reads the six
    capability registers 0x02 to 0x07 once each, in this order and before
    any line of the report, then prints two pieces per voltage; it makes no
    bus write and changes no register. *)
Theorem available_voltages_bus_traffic (s : bus) :
  exists found,
    available_voltages s =
      (inr found,
       logged s
         (Print "The following voltages are available:" newline ::
          map BusRead [0x02; 0x03; 0x04; 0x05; 0x06; 0x07] ++
          report_log (detected_items s))) /\
    length (report_log (detected_items s)) = 12%nat /\
    Forall (fun e => exists text e', e = Print text e')
           (report_log (detected_items s)).
Proof.
  eexists. split; [apply run_available_voltages |].
  split; [reflexivity |].
  unfold detected_items, capability_registers, report_log; simpl.
  repeat (apply Forall_cons; split; [by eexists; eexists |]).
  apply Forall_nil_2.
Qed.

(** X12.  Every voltage [available_voltages] returns is a key of
    VOLTAGE_TO_PDO: the setter of [value] accepts it on any bus and never
    raises ValueError for it. *)
Theorem available_voltages_selectable (s : bus) (found : list Z) :
  (available_voltages s).1 = inr found ->
  forall voltage, voltage ∈ found ->
    is_Some (VOLTAGE_TO_PDO !! voltage) /\
    forall s2, exists s3, value_setter voltage s2 = (inr (), s3).
Proof.
  intros Hrun voltage Hin.
  assert (Hfound : found = (List.filter snd (detected_items s)).*1).
  { rewrite run_available_voltages in Hrun. cbn [fst] in Hrun. congruence. }
  rewrite Hfound in Hin. clear Hrun Hfound.
  apply elem_of_kept in Hin. unfold detected_items in Hin.
  apply list_elem_of_fmap in Hin as ([voltage' register] & Heq & Hreg).
  injection Heq as -> _.
  assert (Hkey : exists code, VOLTAGE_TO_PDO !! voltage' = Some code).
  { unfold capability_registers in Hreg.
    repeat (apply elem_of_cons in Hreg as [Hreg | Hreg];
            [injection Hreg as -> _; by eexists |]).
    by apply elem_of_nil in Hreg. }
  destruct Hkey as [code Hcode]. split; [by exists code |].
  intros s2. eexists. by apply run_value_setter_valid.
Qed.

Lemma available_voltages_selectable_witness :
  is_Some (VOLTAGE_TO_PDO !! 12) /\
  forall s2, exists s3, value_setter 12 s2 = (inr (), s3).
Proof.
  refine (available_voltages_selectable capabilities_example [5; 12; 20]
            _ 12 _); [reflexivity | compute_done].
Defined.

(** ** The example script stops at once *)

Lemma run_script_bind {A B} (c : Script A) (k : A -> Script B) (s : bus) :
  (c ≫= k) s =
  match c s with
  | (inl e, s') => (inl e, s')
  | (inr a, s') => k a s'
  end.
Proof. reflexivity. Qed.

Lemma run_lift {A} (c : M A) (a : A) (s s' : bus) :
  c s = (inr a, s') -> lift c s = (inr a, s').
Proof. intros Hc. unfold lift. by rewrite Hc. Qed.

(** X13.  The example script stops in the first round of its loop, however
    many rounds it is given: [is_attached] is a property, so
    [pd.is_attached()] reads PD_STATUS1 and then calls the [bool] it got,
    which raises TypeError.  Up to there the script has listed the available
    voltages and read one status byte; it has written nothing to the chip
    and selected no voltage. *)
Theorem simpletest_stops_at_is_attached (fuel : nat) (s : bus) :
  main (S fuel) s =
  (inl (TypeError "'bool' object is not callable"),
   logged s
     (Print "The following voltages are available:" newline ::
      map BusRead [0x02; 0x03; 0x04; 0x05; 0x06; 0x07] ++
      report_log (detected_items s) ++
      [BusRead _PD_STATUS1])).
Proof.
  unfold main.
  rewrite run_script_bind, (run_lift _ _ _ _ (run_available_voltages s)).
  cbn [loop].
  rewrite run_script_bind.
  erewrite run_lift; [| by unfold is_attached; rewrite run_bind, run_Bit_get].
  rewrite run_script_bind. unfold call_bool, not_callable, script_raise.
  rewrite logged_logged. cbn [map app].
  by rewrite <- ?app_assoc.
Qed.

(** ** The status voltage table *)

(** X14.  In PDO_TO_VOLTAGE the only entry that is not a number is
    "UNATTACHED" at code 0, and among the numeric entries a higher code
    means a higher voltage, so no two codes decode to the same voltage. *)
Theorem PDO_TO_VOLTAGE_increasing (c1 c2 : Z) (value1 value2 : pyval) :
  PDO_TO_VOLTAGE !! c1 = Some value1 ->
  PDO_TO_VOLTAGE !! c2 = Some value2 ->
  (forall text, value1 = PyStr text -> c1 = 0 /\ text = "UNATTACHED"%string) /\
  (forall v1 v2, value1 = PyInt v1 -> value2 = PyInt v2 ->
                 (c1 < c2 <-> v1 < v2)) /\
  (value1 = value2 -> c1 = c2).
Proof.
  intros H1 H2.
  apply elem_of_list_to_map_2 in H1. apply elem_of_list_to_map_2 in H2.
  repeat (apply elem_of_cons in H1 as [H1 | H1]; [injection H1 as -> -> |]);
    [.. | by apply elem_of_nil in H1];
    (repeat (apply elem_of_cons in H2 as [H2 | H2]; [injection H2 as -> -> |]);
     [.. | by apply elem_of_nil in H2]);
    (split; [| split]);
    solve
      [ intros text Htext;
        first [discriminate Htext | by injection Htext as <-]
      | intros v1 v2 Hv1 Hv2;
        first [discriminate Hv1 | discriminate Hv2
              | injection Hv1 as <-; injection Hv2 as <-; lia]
      | intros Heq; first [reflexivity | discriminate Heq] ].
Qed.

Lemma PDO_TO_VOLTAGE_increasing_witness :
  (forall text, PyInt 9 = PyStr text -> 0x2 = 0 /\ text = "UNATTACHED"%string) /\
  (forall v1 v2, PyInt 9 = PyInt v1 -> PyInt 20 = PyInt v2 ->
                 (0x2 < 0x6 <-> v1 < v2)) /\
  (PyInt 9 = PyInt 20 -> 0x2 = 0x6).
Proof.
  apply (PDO_TO_VOLTAGE_increasing 0x2 0x6 (PyInt 9) (PyInt 20)); reflexivity.
Defined.
